(** * DejaView/create_model.py: the ONNX export script

    The script is a straight line of six statements: two imports, the
    construction of a pretrained MobileNetV2, [model.eval()], the creation
    of a random example tensor and one call of [torch.onnx.export].  Between
    them sits one pure dictionary literal, [dynamic_axes].

    The embedding keeps that shape.  The literals of the script are Rocq
    values ([dynamic_axes] is a [gmap], the path is decoded from the text of
    its Python literal); the six statements are a program over the calls the
    script makes into torch and torchvision, and that program is run against
    an arbitrary behaviour of those libraries: every call may return any
    object or raise any exception.  What is proved about the script therefore
    holds whatever the libraries do. *)

From Stdlib Require Import ZArith Ascii String List.
From stdpp Require Import base option list strings gmap.

Local Open Scope Z_scope.
Local Open Scope string_scope.

(** ** Python string literals *)

Module PyLiteral.

(** The one-character escapes of a Python string literal, by the character
    that follows the backslash. *)
Definition simple_escape (c : ascii) : option ascii :=
  if Ascii.eqb c "\" then Some "\"%char
  else if Ascii.eqb c "'" then Some "'"%char
  else if Ascii.eqb c (ascii_of_nat 34) then Some (ascii_of_nat 34)
  else if Ascii.eqb c "a" then Some (ascii_of_nat 7)
  else if Ascii.eqb c "b" then Some (ascii_of_nat 8)
  else if Ascii.eqb c "f" then Some (ascii_of_nat 12)
  else if Ascii.eqb c "n" then Some (ascii_of_nat 10)
  else if Ascii.eqb c "r" then Some (ascii_of_nat 13)
  else if Ascii.eqb c "t" then Some (ascii_of_nat 9)
  else if Ascii.eqb c "v" then Some (ascii_of_nat 11)
  else None.

(** Escapes that take further characters (octal, hexadecimal, named and
    numbered code points, line continuation); they are not decoded here. *)
Definition long_escape (c : ascii) : bool :=
  let n := nat_of_ascii c in
  ((48 <=? n)%nat && (n <=? 55)%nat)
  || Ascii.eqb c "x" || Ascii.eqb c "N" || Ascii.eqb c "u" || Ascii.eqb c "U"
  || Ascii.eqb c (ascii_of_nat 10).

(** The value of a (non-raw, non-byte) string literal from the text between
    its quotes.  An unknown escape keeps its backslash, as Python does;
    [None] on a trailing backslash and on the escapes left out above. *)
Fixpoint unescape (src : string) : option string :=
  match src with
  | EmptyString => Some EmptyString
  | String c rest =>
      if Ascii.eqb c "\" then
        match rest with
        | EmptyString => None
        | String d rest' =>
            match simple_escape d with
            | Some x => String x <$> unescape rest'
            | None =>
                if long_escape d then None
                else (fun s => String c (String d s)) <$> unescape rest'
            end
        end
      else String c <$> unescape rest
  end.

(** The value a literal of the script denotes; the literals of this script
    are all decoded by [unescape] (see [target_path_decoded]). *)
Definition value (src : string) : string := default src (unescape src).

End PyLiteral.

(** ** Path names of the two platform families *)

Module Path.

Inductive Platform := Posix | Windows.

(** POSIX separates path components by the slash only; Windows by the
    backslash and by the slash. *)
Definition is_sep (os : Platform) (c : ascii) : bool :=
  match os with
  | Posix => Ascii.eqb c "/"
  | Windows => Ascii.eqb c "\" || Ascii.eqb c "/"
  end.

(** The components of a path, in order; never empty. *)
Fixpoint components (os : Platform) (p : string) : list string :=
  match p with
  | EmptyString => [EmptyString]
  | String c p' =>
      if is_sep os c then EmptyString :: components os p'
      else match components os p' with
           | [] => [String c EmptyString]
           | x :: xs => String c x :: xs
           end
  end.

(** The directories a path goes through, and the name of the file in the
    last of them.  No directory: the file is in the working directory. *)
Definition directories (os : Platform) (p : string) : list string :=
  removelast (components os p).

Definition file_name (os : Platform) (p : string) : string :=
  List.last (components os p) EmptyString.

Definition chars (p : string) : list ascii := list_ascii_of_string p.

End Path.

(** ** The constants of the script *)

(** [dynamic_axes], lines 5-8: tensor name to (axis index to symbolic name). *)
Definition dynamic_axes : gmap string (gmap Z string) :=
  {[ "input" := {[ 0 := "batch_size"; 2 := "height"; 3 := "width" ]};
     "output" := {[ 0 := "batch_size" ]} ]}.

(** The text of the third argument of the export call, as written between the
    quotes in line 10, and the string it denotes. *)
Definition target_path_literal : string := "Static\\mobilenetv2_dynamic.onnx".

Definition target_path : string := PyLiteral.value target_path_literal.

(** The size given to [torch.randn] in line 9. *)
Definition dummy_size : list Z := [1; 3; 224; 224].

(** ** The calls of the script into torch and torchvision *)

Section Script.

(** Python objects (the model, the tensor, what a call returns) and
    exceptions are left abstract: the script only passes them on. *)
Variables Obj Exn : Type.

(** The arguments of [torch.onnx.export] that the script gives: three by
    position ([model], [args], [f]) and four by keyword. *)
Record ExportArgs := {
  model_arg : Obj;
  args_arg : Obj;
  f_arg : string;
  input_names : list string;
  output_names : list string;
  dynamic_axes_arg : gmap string (gmap Z string);
  opset_version : Z
}.

Inductive Call :=
| import_module (name : string)
| mobilenet_v2 (pretrained : bool)
| eval (self : Obj)
| randn (size : list Z)
| onnx_export (a : ExportArgs).

(** A statement sequence: finished, or a call and the rest of the script,
    which may use the object the call returned. *)
Inductive Prog (A : Type) :=
| Ret (a : A)
| Do (c : Call) (k : Obj -> Prog A).

(** A call, and the script as a whole, returns or raises. *)
Inductive Outcome (A : Type) :=
| Returned (a : A)
| Raised (e : Exn).

(** The libraries: any function from a call and the state of the world
    (network, disk, random generator, ...) to an outcome and a new state. *)
Definition Library (W : Type) : Type := Call -> W -> Outcome Obj * W.

Definition Event : Type := Call * Outcome Obj.

Record Run (A W : Type) := {
  events : list Event;
  result : Outcome A;
  world : W
}.

End Script.

Arguments model_arg {Obj} _.
Arguments args_arg {Obj} _.
Arguments f_arg {Obj} _.
Arguments input_names {Obj} _.
Arguments output_names {Obj} _.
Arguments dynamic_axes_arg {Obj} _.
Arguments opset_version {Obj} _.
Arguments import_module {Obj} name.
Arguments mobilenet_v2 {Obj} pretrained.
Arguments eval {Obj} self.
Arguments randn {Obj} size.
Arguments onnx_export {Obj} a.
Arguments Ret {Obj A} a.
Arguments Do {Obj A} c k.
Arguments Returned {Exn A} a.
Arguments Raised {Exn A} e.
Arguments events {Obj Exn A W} _.
Arguments result {Obj Exn A W} _.
Arguments world {Obj Exn A W} _.

Notation "x <- c ;; k" := (Do c (fun x => k))
  (at level 200, c at level 99, right associativity, only parsing).

(** Statements run in order; the first call that raises ends the script with
    that exception.  The script has no [try], so nothing else can happen to
    an exception. *)
Fixpoint run {Obj Exn A W} (lib : Library Obj Exn W) (p : Prog Obj A) (w : W)
  : Run Obj Exn A W :=
  match p with
  | Ret a => {| events := []; result := Returned a; world := w |}
  | Do c k =>
      match lib c w with
      | (Returned x, w') =>
          let r := run lib (k x) w' in
          {| events := (c, Returned x) :: events r;
             result := result r;
             world := world r |}
      | (Raised e, w') =>
          {| events := [(c, Raised e)]; result := Raised e; world := w' |}
      end
  end.

(** The exit status of the interpreter: 0 when the script ran to its end,
    1 when an exception reached the top level. *)
Definition exit_status {Exn A} (r : Outcome Exn A) : Z :=
  match r with
  | Returned _ => 0
  | Raised _ => 1
  end.

(** create_model.py, lines 1-12. *)
Definition create_model {Obj} : Prog Obj unit :=
  _ <- import_module "torch" ;;
  _ <- import_module "torchvision.models" ;;
  model <- mobilenet_v2 true ;;
  _ <- eval model ;;
  let dynamic_axes := dynamic_axes in
  dummy_input <- randn dummy_size ;;
  _ <- onnx_export {|
         model_arg := model;
         args_arg := dummy_input;
         f_arg := target_path;
         input_names := ["input"];
         output_names := ["output"];
         dynamic_axes_arg := dynamic_axes;
         opset_version := 11
       |} ;;
  Ret tt.

(** The calls of a run, without their outcomes. *)
Definition calls {Obj Exn} (evs : list (Event Obj Exn)) : list (Call Obj) :=
  fst <$> evs.

(** The export invocations of a run. *)
Definition exports {Obj Exn} (evs : list (Event Obj Exn)) : list (ExportArgs Obj) :=
  omap (fun ev => match fst ev with onnx_export a => Some a | _ => None end) evs.

(** The axes that a dynamic-axes dictionary marks for a tensor name. *)
Definition marked (axes : gmap string (gmap Z string)) (name : string) : gset Z :=
  dom (default ∅ (axes !! name)).

(** The constructions of a model and the calls of [eval] in a run. *)
Definition constructions {Obj Exn} (evs : list (Event Obj Exn)) : list bool :=
  omap (fun ev => match fst ev with mobilenet_v2 p => Some p | _ => None end) evs.

Definition evals {Obj Exn} (evs : list (Event Obj Exn)) : list Obj :=
  omap (fun ev => match fst ev with eval self => Some self | _ => None end) evs.

(** ** The declared dimensions of an exported tensor *)

Inductive Dim :=
| Literal (n : Z)
| Symbolic (name : string).

(** Modelled from the spec: what the exporter, [torch.onnx.export] (a library,
    no file of the repository), declares for each axis of a named tensor that
    was traced with shape [shape].  The spec: an axis not marked dynamic is
    baked into the exported graph as a literal constant equal to the dummy
    input's corresponding dimension; a marked axis is variable, under the
    symbolic name the dictionary gives it. *)
Definition declared_dims (axes : gmap string (gmap Z string)) (name : string)
    (shape : list Z) : list Dim :=
  imap (fun i n => match default ∅ (axes !! name) !! Z.of_nat i with
                   | Some sym => Symbolic sym
                   | None => Literal n
                   end) shape.

(** ** A library for examples

    Objects are numbered in the order in which calls return them; a call
    raises when [fails] says so. *)
Definition numbering (fails : Call nat -> option string) : Library nat string nat :=
  fun c n =>
    match fails c with
    | Some e => (Raised e, n)
    | None => (Returned n, S n)
    end.

Definition all_succeed : Library nat string nat := numbering (fun _ => None).

Definition fetch_fails : Library nat string nat :=
  numbering (fun c => match c with
                      | mobilenet_v2 _ => Some "URLError"
                      | _ => None
                      end).

Definition export_fails : Library nat string nat :=
  numbering (fun c => match c with
                      | onnx_export _ => Some "FileNotFoundError"
                      | _ => None
                      end).

(** The export invocation of the run in which every call returns: the model
    is object 2 and the dummy input object 4. *)
Definition example_export : ExportArgs nat :=
  {| model_arg := 2%nat; args_arg := 4%nat;
     f_arg := target_path;
     input_names := ["input"]; output_names := ["output"];
     dynamic_axes_arg := dynamic_axes; opset_version := 11 |}.

(** The events of that run, around the creation of the dummy input and
    around the construction of the model. *)
Definition before_randn : list (Event nat string) :=
  [(import_module "torch", Returned 0%nat);
   (import_module "torchvision.models", Returned 1%nat);
   (mobilenet_v2 true, Returned 2%nat);
   (eval 2%nat, Returned 3%nat)].

Definition after_randn : list (Event nat string) :=
  [(onnx_export example_export, Returned 5%nat)].

Definition before_model : list (Event nat string) :=
  [(import_module "torch", Returned 0%nat);
   (import_module "torchvision.models", Returned 1%nat)].

Definition after_model : list (Event nat string) :=
  [(eval 2%nat, Returned 3%nat);
   (randn [1; 3; 224; 224], Returned 4%nat);
   (onnx_export example_export, Returned 5%nat)].

(** ** The statements without their objects *)

(** What a call is, apart from the objects it is given. *)
Inductive Step :=
| SImport (name : string)
| SMobilenetV2 (pretrained : bool)
| SEval
| SRandn (size : list Z)
| SExport.

Definition step_of {Obj} (c : Call Obj) : Step :=
  match c with
  | import_module name => SImport name
  | mobilenet_v2 pretrained => SMobilenetV2 pretrained
  | eval _ => SEval
  | randn size => SRandn size
  | onnx_export _ => SExport
  end.

Definition steps {Obj Exn} (evs : list (Event Obj Exn)) : list Step :=
  step_of <$> calls evs.

(** The statements of create_model.py that call a library, in the order of
    the file: lines 1, 2, 3, 4, 9 and 10-12. *)
Definition script_steps : list Step :=
  [SImport "torch"; SImport "torchvision.models"; SMobilenetV2 true; SEval;
   SRandn [1; 3; 224; 224]; SExport].


(** * Properties *)

Section Properties.

Context {Obj Exn W : Type}.
Implicit Types (lib : Library Obj Exn W) (w : W).
Implicit Types (a : ExportArgs Obj) (evs : list (Event Obj Exn)).

(** ** Runs in general *)

(** A run ends in an exception exactly when its last call raised it: no
    statement of a program stands between a raising call and the top. *)
Lemma run_raised_iff_last {A} (p : Prog Obj A) lib w e :
  result (run lib p w) = Raised e ↔
  ∃ c, last (events (run lib p w)) = Some (c, Raised e).
Proof.
  revert w. induction p as [x | c k IH]; intros w; cbn [run].
  - cbn. split; [discriminate | intros [c Hc]; discriminate Hc].
  - destruct (lib c w) as [[y | e'] w']; cbn [events result].
    + rewrite IH, last_cons.
      destruct (last (events (run lib (k y) w'))) as [ev|] eqn:Hlast.
      * reflexivity.
      * split; intros [c' Hc']; discriminate Hc'.
    + cbn. split.
      * intros [= ->]. by exists c.
      * by intros [c' [= _ ->]].
Qed.

(** Every call before the last one of a run returned. *)
Lemma run_raised_only_last {A} (p : Prog Obj A) lib w c e :
  (c, Raised e) ∈ events (run lib p w) →
  last (events (run lib p w)) = Some (c, Raised e).
Proof.
  revert w. induction p as [x | c0 k IH]; intros w; cbn [run].
  - cbn. by intros ?%elem_of_nil.
  - destruct (lib c0 w) as [[y | e'] w']; cbn [events].
    + intros [[=] | Hin]%elem_of_cons.
      rewrite last_cons, (IH _ _ Hin). reflexivity.
    + by intros ->%list_elem_of_singleton.
Qed.

(** ** Runs of the script *)

(** Case analysis on what the libraries answer, call after call. *)
Ltac answers lib :=
  unfold create_model; cbn [run];
  repeat (destruct (lib _ _) as [[?|?] ?]; cbn [run events result world]).

(** What the script asks of the exporter is the same in every run: only the
    two objects come from the libraries. *)
Lemma exports_inv lib w a :
  a ∈ exports (events (run lib create_model w)) →
  exports (events (run lib create_model w)) = [a] ∧
  ∃ model dummy_input,
    a = {| model_arg := model; args_arg := dummy_input;
           f_arg := target_path;
           input_names := ["input"]; output_names := ["output"];
           dynamic_axes_arg := dynamic_axes; opset_version := 11 |}.
Proof.
  answers lib; cbn [exports omap fst]; intros Ha.
  all: try (apply elem_of_nil in Ha; contradiction).
  all: apply list_elem_of_singleton in Ha; subst a; split; eauto.
Qed.

Lemma marked_input : marked dynamic_axes "input" = {[0; 2; 3]}.
Proof. vm_compute. reflexivity. Qed.

Lemma marked_output : marked dynamic_axes "output" = {[0]}.
Proof. vm_compute. reflexivity. Qed.

Lemma dynamic_axes_names : dom dynamic_axes = {["input"; "output"]}.
Proof. unfold dynamic_axes. rewrite dom_insert_L, dom_singleton_L. set_solver. Qed.

Lemma marked_unnamed name :
  name ≠ "input" → name ≠ "output" → marked dynamic_axes name = ∅.
Proof.
  intros Hi Ho. unfold marked, dynamic_axes.
  rewrite lookup_insert_ne, lookup_singleton_ne by congruence. apply dom_empty_L.
Qed.

(** C1: in every run, the export invocation marks as dynamic exactly the
    axes 0, 2 and 3 of the tensor named input and exactly the axis 0 of the
    tensor named output; the dictionary marks no axis of any other name. *)
Theorem C1_dynamic_axes_of_export lib w a :
  a ∈ exports (events (run lib create_model w)) →
  (∀ i : Z, i ∈ marked (dynamic_axes_arg a) "input" ↔ i = 0 ∨ i = 2 ∨ i = 3) ∧
  (∀ i : Z, i ∈ marked (dynamic_axes_arg a) "output" ↔ i = 0) ∧
  (∀ name (i : Z), i ∈ marked (dynamic_axes_arg a) name →
                   name = "input" ∨ name = "output").
Proof.
  intros Ha. apply exports_inv in Ha as [_ (m & t & ->)]. cbn.
  rewrite marked_input, marked_output. split_and!.
  - intros i. rewrite !elem_of_union, !elem_of_singleton. tauto.
  - intros i. apply elem_of_singleton.
  - intros name i Hi.
    destruct (decide (name = "input")) as [|Hn1]; [by left|].
    destruct (decide (name = "output")) as [|Hn2]; [by right|].
    rewrite marked_unnamed in Hi by done. set_solver.
Qed.

(** C2: in every run there is one export invocation; its [input_names] is
    the one name input, its [output_names] the one name output (two named
    tensors in all), and its [opset_version] is 11. *)
Theorem C2_names_and_opset_of_export lib w a :
  a ∈ exports (events (run lib create_model w)) →
  exports (events (run lib create_model w)) = [a] ∧
  input_names a = ["input"] ∧
  output_names a = ["output"] ∧
  (input_names a ++ output_names a)%list = ["input"; "output"] ∧
  opset_version a = 11.
Proof.
  intros Ha. apply exports_inv in Ha as [Hone (m & t & ->)]. by split_and!.
Qed.

(** C9: in every run, the names that the dynamic-axes dictionary of the
    export invocation has as keys are input and output and no other, and
    each of them is among the input and output names given to the same
    invocation. *)
Theorem C9_axes_keys_are_declared_names lib w a :
  a ∈ exports (events (run lib create_model w)) →
  dom (dynamic_axes_arg a) = {["input"; "output"]} ∧
  ∀ name, name ∈ dom (dynamic_axes_arg a) →
          name ∈ (input_names a ++ output_names a)%list.
Proof.
  intros Ha. apply exports_inv in Ha as [_ (m & t & ->)]. cbn.
  rewrite dynamic_axes_names. split; [done|].
  intros name [->%elem_of_singleton | ->%elem_of_singleton]%elem_of_union;
    cbn; repeat constructor.
Qed.

(** ** The path *)

(** A literal without a backslash denotes its own text. *)
Lemma unescape_plain (src : string) :
  "\"%char ∉ Path.chars src → PyLiteral.unescape src = Some src.
Proof.
  induction src as [|c src IH]; [done|]. cbn. intros Hc.
  destruct (Ascii.eqb_spec c "\") as [-> | _].
  - exfalso. apply Hc. left.
  - rewrite IH; [done|]. intros Hin. apply Hc. by right.
Qed.

(** A path without a separator is a single component. *)
Lemma components_no_sep os (p : string) :
  Forall (λ c, Path.is_sep os c = false) (Path.chars p) →
  Path.components os p = [p].
Proof.
  induction p as [|c p IH]; [done|]. cbn.
  intros [Hc Hp]%Forall_cons. rewrite Hc, (IH Hp). reflexivity.
Qed.

Lemma target_path_decoded :
  PyLiteral.unescape target_path_literal = Some "Static\mobilenetv2_dynamic.onnx".
Proof. reflexivity. Qed.

Lemma target_path_value : target_path = "Static\mobilenetv2_dynamic.onnx".
Proof. unfold target_path, PyLiteral.value. by rewrite target_path_decoded. Qed.

(** The path literal denotes Static, one backslash,
    mobilenetv2_dynamic.onnx, with no slash in it.  Read with the POSIX
    separator it has no directory component and its last component is the
    whole string, backslash included; read with the Windows separators its
    components are Static and mobilenetv2_dynamic.onnx. *)
Lemma target_path_by_platform :
  PyLiteral.unescape target_path_literal = Some target_path ∧
  target_path = "Static\mobilenetv2_dynamic.onnx" ∧
  ("\"%char ∈ Path.chars target_path) ∧
  ("/"%char ∉ Path.chars target_path) ∧
  Path.directories Path.Posix target_path = [] ∧
  Path.file_name Path.Posix target_path = target_path ∧
  ("\"%char ∈ Path.chars (Path.file_name Path.Posix target_path)) ∧
  Path.directories Path.Windows target_path = ["Static"] ∧
  Path.file_name Path.Windows target_path = "mobilenetv2_dynamic.onnx" ∧
  (∀ os, "Static" ∈ Path.directories os target_path ↔ os = Path.Windows) ∧
  (∀ lib w, Forall (λ a, f_arg a = target_path)
                   (exports (events (run lib create_model w)))).
Proof.
  rewrite target_path_value. split_and!; try reflexivity.
  - apply list_elem_of_In. vm_compute. do 6 right. by left.
  - rewrite list_elem_of_In. vm_compute. intros H.
    repeat (destruct H as [H|H]; [discriminate H|]). exact H.
  - apply list_elem_of_In. vm_compute. do 6 right. by left.
  - intros os. split.
    + destruct os; [|done]. vm_compute. by intros H%elem_of_nil.
    + intros ->. vm_compute. constructor.
  - intros lib w. apply Forall_forall. intros a Ha.
    apply exports_inv in Ha as [_ (m & t & ->)]. cbn. apply target_path_value.
Qed.

(** ** The fixed axes *)

Lemma declared_dims_input :
  declared_dims dynamic_axes "input" dummy_size
  = [Symbolic "batch_size"; Literal 3; Symbolic "height"; Symbolic "width"].
Proof. vm_compute. reflexivity. Qed.

(** The constants against each other: of the four axes of [dummy_size], the
    one that [dynamic_axes] does not mark for the tensor named input is
    axis 1, of dimension 3. *)
Lemma input_axes_against_dummy_size :
  (∀ (i : nat) (n : Z),
      dummy_size !! i = Some n →
      Z.of_nat i ∉ marked dynamic_axes "input" →
      i = 1%nat ∧ n = 3 ∧
      declared_dims dynamic_axes "input" dummy_size !! i = Some (Literal n)) ∧
  (dummy_size !! 1%nat = Some 3 ∧ 1 ∉ marked dynamic_axes "input") ∧
  (∀ j : Z, j ∈ marked dynamic_axes "input" →
            0 ≤ j < Z.of_nat (length dummy_size) ∧
            ∃ sym, declared_dims dynamic_axes "input" dummy_size !! Z.to_nat j
                   = Some (Symbolic sym)).
Proof.
  rewrite declared_dims_input, marked_input. split_and!.
  - intros i n Hi Hm.
    destruct i as [|[|[|[|i]]]]; cbn in Hi; simplify_eq.
    + exfalso. apply Hm. set_solver.
    + done.
    + exfalso. apply Hm. set_solver.
    + exfalso. apply Hm. set_solver.
  - reflexivity.
  - rewrite !elem_of_union, !elem_of_singleton. lia.
  - intros j. rewrite !elem_of_union, !elem_of_singleton.
    intros [[-> | ->] | ->]; (split; [cbn; lia | cbn; eauto]).
Qed.

(** ** The order of the statements *)

(** Splitting a list of known events at one of its elements. *)
Ltac split_at pre :=
  repeat (destruct pre as [|? pre]; simplify_eq/=).

(** C3: the dummy input is what [torch.randn] returns for the size
    (1, 3, 224, 224).  Up to then the script has imported the two modules,
    built the model and called [eval] on it; after it, the script makes one
    more call and no other: the export invocation, with the dummy input as
    its [args]. *)
Theorem C3_dummy_input_shape_and_use lib w pre size dummy_input post :
  events (run lib create_model w)
    = (pre ++ (randn size, Returned dummy_input) :: post)%list →
  size = [1; 3; 224; 224] ∧
  ∃ u v model y o,
    pre = [(import_module "torch", Returned u);
           (import_module "torchvision.models", Returned v);
           (mobilenet_v2 true, Returned model);
           (eval model, Returned y)] ∧
    post = [(onnx_export
               {| model_arg := model; args_arg := dummy_input;
                  f_arg := target_path;
                  input_names := ["input"]; output_names := ["output"];
                  dynamic_axes_arg := dynamic_axes; opset_version := 11 |},
             o)].
Proof.
  answers lib; intros H; split_at pre; (split; [done|]); eauto 10.
Qed.

(** C8: when the model has been built, it was built by the one call of
    [mobilenet_v2] of the run, with [pretrained=True], after the two
    imports; the next statement calls [eval] on it, and that is the one
    call of [eval] of the run; what follows is the creation of the dummy
    input and the export invocation, which is given the model; nothing
    else. *)
Theorem C8_model_lifecycle lib w pre pretrained model post :
  events (run lib create_model w)
    = (pre ++ (mobilenet_v2 pretrained, Returned model) :: post)%list →
  pretrained = true ∧
  constructions (events (run lib create_model w)) = [true] ∧
  evals (events (run lib create_model w)) = [model] ∧
  calls pre = [import_module "torch"; import_module "torchvision.models"] ∧
  ∃ o rest,
    post = (eval model, o) :: rest ∧
    (calls rest = []
     ∨ calls rest = [randn dummy_size]
     ∨ ∃ dummy_input,
         calls rest
         = [randn dummy_size;
            onnx_export
              {| model_arg := model; args_arg := dummy_input;
                 f_arg := target_path;
                 input_names := ["input"]; output_names := ["output"];
                 dynamic_axes_arg := dynamic_axes; opset_version := 11 |}]).
Proof.
  answers lib; intros H; rewrite H; split_at pre;
    split_and!; try done; do 2 eexists; (split; [done|]); cbn; eauto.
Qed.

(** Membership in a list of known events, one candidate at a time. *)
Ltac pick_event H :=
  repeat (apply elem_of_cons in H as [H|H]; simplify_eq/=);
  try (by apply elem_of_nil in H).

Lemma raised_ends_run lib w c e :
  (c, Raised e) ∈ events (run lib create_model w) →
  result (run lib create_model w) = Raised e ∧
  exit_status (result (run lib create_model w)) ≠ 0 ∧
  last (events (run lib create_model w)) = Some (c, Raised e).
Proof.
  answers lib; intros Hin; pick_event Hin; by split_and!.
Qed.

Lemma exit_zero_iff lib w :
  exit_status (result (run lib create_model w)) = 0 ↔
  (∃ model, (mobilenet_v2 true, Returned model)
            ∈ events (run lib create_model w)) ∧
  (∃ a x, (onnx_export a, Returned x) ∈ events (run lib create_model w)).
Proof.
  answers lib; (split; [intros Hz | intros [_ (a' & x & Hin)]]);
    try discriminate Hz; try (pick_event Hin; done).
  split; [eexists | do 2 eexists]; apply list_elem_of_In; cbn.
  - do 2 right. left. reflexivity.
  - do 5 right. left. reflexivity.
Qed.

(** C6: the script handles no exception.  In every run, an exception that
    a call raises (the weight download of [mobilenet_v2], the file or the
    tracing of the export, or any other) is the result of the script, the
    raising call is the last one made, and the exit status is not zero;
    the exit status is zero exactly when the model was loaded and the
    export returned. *)
Theorem C6_exceptions_reach_the_top lib w :
  (∀ c e, (c, Raised e) ∈ events (run lib create_model w) →
          result (run lib create_model w) = Raised e ∧
          exit_status (result (run lib create_model w)) ≠ 0 ∧
          last (events (run lib create_model w)) = Some (c, Raised e)) ∧
  (exit_status (result (run lib create_model w)) = 0 ↔
     (∃ model, (mobilenet_v2 true, Returned model)
               ∈ events (run lib create_model w)) ∧
     (∃ a x, (onnx_export a, Returned x)
             ∈ events (run lib create_model w))).
Proof.
  split; [apply raised_ends_run | apply exit_zero_iff].
Qed.

(** ** More on the runs of the script *)

(** X1: no export invocation is made exactly when one of the calls before
    it (an import, the construction of the model, [eval], [randn]) raised;
    so a failure before the export never leaves an export request behind,
    and only such a failure prevents one. *)
Theorem X1_export_skipped_iff_earlier_failure lib w :
  exports (events (run lib create_model w)) = [] ↔
  ∃ c e, (c, Raised e) ∈ events (run lib create_model w) ∧
         step_of c ≠ SExport.
Proof.
  answers lib; cbn [exports omap fst]; split.
  all: try (intros _; do 2 eexists; split;
            [apply list_elem_of_In; cbn; eauto 10 | done]).
  all: try done.
  all: intros (c' & e' & Hin & Hc); pick_event Hin; done.
Qed.

(** X2: whatever the libraries do, the calls of a run are a beginning of the
    six statements of the file, in their order, and there is at least one;
    a run that returns has made all six. *)
Theorem X2_calls_follow_the_file lib w :
  steps (events (run lib create_model w)) `prefix_of` script_steps ∧
  events (run lib create_model w) ≠ [] ∧
  (∀ x, result (run lib create_model w) = Returned x →
        steps (events (run lib create_model w)) = script_steps).
Proof.
  answers lib; split_and!; try done.
  all: unfold steps, calls, script_steps, dummy_size; cbn.
  all: eexists; reflexivity.
Qed.




(** ** The export invocation against the dummy input it traces *)

(** C4: in every run, take the tensor that [torch.randn] returned and the
    export invocation that follows.  The invocation traces that tensor, which
    was asked for with four axes.  Of these, the one that the invocation's
    dictionary does not mark for the tensor named input is axis 1, where
    the size is 3, and the exported graph declares that axis as the literal
    3; each marked axis is an axis of the tensor and is declared under its
    symbolic name, so that the declared dimensions of input are batch_size,
    3, height, width. *)
Theorem C4_fixed_axes_take_dummy_dimension lib w pre size dummy_input post a :
  events (run lib create_model w)
    = (pre ++ (randn size, Returned dummy_input) :: post)%list →
  a ∈ exports post →
  args_arg a = dummy_input ∧
  length size = 4%nat ∧
  (∀ (i : nat) (n : Z),
      size !! i = Some n →
      Z.of_nat i ∉ marked (dynamic_axes_arg a) "input" →
      i = 1%nat ∧ n = 3 ∧
      declared_dims (dynamic_axes_arg a) "input" size !! i = Some (Literal n)) ∧
  (size !! 1%nat = Some 3 ∧ 1 ∉ marked (dynamic_axes_arg a) "input") ∧
  (∀ j : Z, j ∈ marked (dynamic_axes_arg a) "input" →
            0 ≤ j < Z.of_nat (length size) ∧
            ∃ sym, declared_dims (dynamic_axes_arg a) "input" size !! Z.to_nat j
                   = Some (Symbolic sym)) ∧
  declared_dims (dynamic_axes_arg a) "input" size
  = [Symbolic "batch_size"; Literal 3; Symbolic "height"; Symbolic "width"].
Proof.
  pose proof input_axes_against_dummy_size as (Hfixed & Haxis1 & Hmarked).
  answers lib; intros H Ha; split_at pre.
  all: cbn [exports omap fst] in Ha.
  all: try (by apply elem_of_nil in Ha).
  all: apply list_elem_of_singleton in Ha; subst a; cbn.
  all: split_and!; try done; apply declared_dims_input.
Qed.

(** X4: in every run, the file name given to the export invocation is the
    string that the literal of line 10 denotes: Static, a backslash,
    mobilenetv2_dynamic.onnx; 31 characters, of which one is a backslash
    and none is a slash. *)
Theorem X4_export_path_has_backslash lib w a :
  a ∈ exports (events (run lib create_model w)) →
  PyLiteral.unescape target_path_literal = Some (f_arg a) ∧
  f_arg a = "Static\mobilenetv2_dynamic.onnx" ∧
  length (Path.chars (f_arg a)) = 31%nat ∧
  Path.chars (f_arg a) !! 6%nat = Some "\"%char ∧
  length (filter (λ c, c = "\"%char) (Path.chars (f_arg a))) = 1%nat ∧
  ("/"%char ∉ Path.chars (f_arg a)).
Proof.
  intros Ha. apply exports_inv in Ha as [_ (m & t & ->)]. cbn [f_arg].
  rewrite target_path_value. split_and!.
  - exact target_path_decoded.
  - reflexivity.
  - vm_compute. reflexivity.
  - vm_compute. reflexivity.
  - vm_compute. reflexivity.
  - rewrite list_elem_of_In. vm_compute. intros H.
    repeat (destruct H as [H|H]; [discriminate H|]). exact H.
Qed.

End Properties.

(** * The properties on example runs *)

Lemma example_export_made :
  example_export ∈ exports (events (run all_succeed create_model 0%nat)).
Proof. vm_compute. left. Qed.

Lemma C1_witness :
  example_export ∈ exports (events (run all_succeed create_model 0%nat)) ∧
  ((∀ i : Z, i ∈ marked (dynamic_axes_arg example_export) "input"
             ↔ i = 0 ∨ i = 2 ∨ i = 3) ∧
   (∀ i : Z, i ∈ marked (dynamic_axes_arg example_export) "output" ↔ i = 0) ∧
   (∀ name (i : Z), i ∈ marked (dynamic_axes_arg example_export) name →
                    name = "input" ∨ name = "output")).
Proof.
  split; [exact example_export_made|].
  exact (C1_dynamic_axes_of_export all_succeed 0%nat example_export
           example_export_made).
Defined.

Lemma C2_witness :
  example_export ∈ exports (events (run all_succeed create_model 0%nat)) ∧
  (exports (events (run all_succeed create_model 0%nat)) = [example_export] ∧
   input_names example_export = ["input"] ∧
   output_names example_export = ["output"] ∧
   (input_names example_export ++ output_names example_export)%list
   = ["input"; "output"] ∧
   opset_version example_export = 11).
Proof.
  split; [exact example_export_made|].
  exact (C2_names_and_opset_of_export all_succeed 0%nat example_export
           example_export_made).
Defined.

Lemma C9_witness :
  example_export ∈ exports (events (run all_succeed create_model 0%nat)) ∧
  (dom (dynamic_axes_arg example_export) = {["input"; "output"]} ∧
   ∀ name, name ∈ dom (dynamic_axes_arg example_export) →
           name ∈ (input_names example_export
                   ++ output_names example_export)%list).
Proof.
  split; [exact example_export_made|].
  exact (C9_axes_keys_are_declared_names all_succeed 0%nat example_export
           example_export_made).
Defined.

Lemma example_run_at_randn :
  events (run all_succeed create_model 0%nat)
  = (before_randn ++ (randn [1; 3; 224; 224], Returned 4%nat) :: after_randn)%list.
Proof. reflexivity. Qed.

Lemma example_run_at_model :
  events (run all_succeed create_model 0%nat)
  = (before_model ++ (mobilenet_v2 true, Returned 2%nat) :: after_model)%list.
Proof. reflexivity. Qed.

Lemma C3_witness :
  events (run all_succeed create_model 0%nat)
  = (before_randn ++ (randn [1; 3; 224; 224], Returned 4%nat) :: after_randn)%list ∧
  ([1; 3; 224; 224] = [1; 3; 224; 224] ∧
   ∃ u v model y o,
     before_randn = [(import_module "torch", Returned u);
                     (import_module "torchvision.models", Returned v);
                     (mobilenet_v2 true, Returned model);
                     (eval model, Returned y)] ∧
     after_randn = [(onnx_export
                       {| model_arg := model; args_arg := 4%nat;
                          f_arg := target_path;
                          input_names := ["input"]; output_names := ["output"];
                          dynamic_axes_arg := dynamic_axes;
                          opset_version := 11 |},
                     o)]).
Proof.
  split; [exact example_run_at_randn|].
  exact (C3_dummy_input_shape_and_use all_succeed 0%nat before_randn
           [1; 3; 224; 224] 4%nat after_randn example_run_at_randn).
Defined.

Lemma C8_witness :
  events (run all_succeed create_model 0%nat)
  = (before_model ++ (mobilenet_v2 true, Returned 2%nat) :: after_model)%list ∧
  (true = true ∧
   constructions (events (run all_succeed create_model 0%nat)) = [true] ∧
   evals (events (run all_succeed create_model 0%nat)) = [2%nat] ∧
   calls before_model
   = [import_module "torch"; import_module "torchvision.models"] ∧
   ∃ o rest,
     after_model = (eval 2%nat, o) :: rest ∧
     (calls rest = []
      ∨ calls rest = [randn dummy_size]
      ∨ ∃ dummy_input,
          calls rest
          = [randn dummy_size;
             onnx_export
               {| model_arg := 2%nat; args_arg := dummy_input;
                  f_arg := target_path;
                  input_names := ["input"]; output_names := ["output"];
                  dynamic_axes_arg := dynamic_axes; opset_version := 11 |}])).
Proof.
  split; [exact example_run_at_model|].
  exact (C8_model_lifecycle all_succeed 0%nat before_model true 2%nat
           after_model example_run_at_model).
Defined.

Lemma fetch_fails_raises :
  (mobilenet_v2 true, Raised "URLError")
  ∈ events (run fetch_fails create_model 0%nat).
Proof. vm_compute. do 2 right. left. Qed.

Lemma C6_witness :
  result (run fetch_fails create_model 0%nat) = Raised "URLError" ∧
  exit_status (result (run fetch_fails create_model 0%nat)) ≠ 0 ∧
  last (events (run fetch_fails create_model 0%nat))
  = Some (mobilenet_v2 true, Raised "URLError").
Proof.
  exact (proj1 (C6_exceptions_reach_the_top fetch_fails 0%nat)
           (mobilenet_v2 true) "URLError" fetch_fails_raises).
Defined.

(** When the export raises, the five calls before it have returned, no
    export has returned, and the exit status is 1. *)
Example export_fails_run :
  result (run export_fails create_model 0%nat) = Raised "FileNotFoundError" ∧
  exit_status (result (run export_fails create_model 0%nat)) = 1 ∧
  length (events (run export_fails create_model 0%nat)) = 6%nat ∧
  exports (events (run export_fails create_model 0%nat)) = [example_export].
Proof. by split_and!. Qed.

Lemma example_export_after_randn : example_export ∈ exports after_randn.
Proof. vm_compute. left. Qed.

Lemma C4_witness :
  events (run all_succeed create_model 0%nat)
  = (before_randn ++ (randn [1; 3; 224; 224], Returned 4%nat) :: after_randn)%list ∧
  example_export ∈ exports after_randn ∧
  args_arg example_export = 4%nat ∧
  [1; 3; 224; 224] !! 1%nat = Some 3 ∧
  (1 ∉ marked (dynamic_axes_arg example_export) "input") ∧
  declared_dims (dynamic_axes_arg example_export) "input" [1; 3; 224; 224]
  = [Symbolic "batch_size"; Literal 3; Symbolic "height"; Symbolic "width"].
Proof.
  pose proof (C4_fixed_axes_take_dummy_dimension all_succeed 0%nat before_randn
                [1; 3; 224; 224] 4%nat after_randn example_export
                example_run_at_randn example_export_after_randn)
    as (Hargs & _ & _ & [Hsize Hfree] & _ & Hdims).
  exact (conj example_run_at_randn
           (conj example_export_after_randn
              (conj Hargs (conj Hsize (conj Hfree Hdims))))).
Defined.

Lemma fetch_fails_before_export :
  ∃ c e, (c, @Raised string nat e) ∈ events (run fetch_fails create_model 0%nat) ∧
         step_of c ≠ SExport.
Proof.
  exists (mobilenet_v2 true), "URLError". split; [exact fetch_fails_raises | done].
Qed.

Lemma X1_witness : exports (events (run fetch_fails create_model 0%nat)) = [].
Proof.
  exact (proj2 (X1_export_skipped_iff_earlier_failure fetch_fails 0%nat)
           fetch_fails_before_export).
Defined.


Lemma X4_witness :
  example_export ∈ exports (events (run all_succeed create_model 0%nat)) ∧
  (PyLiteral.unescape target_path_literal = Some (f_arg example_export) ∧
   f_arg example_export = "Static\mobilenetv2_dynamic.onnx" ∧
   length (Path.chars (f_arg example_export)) = 31%nat ∧
   Path.chars (f_arg example_export) !! 6%nat = Some "\"%char ∧
   length (filter (λ c, c = "\"%char) (Path.chars (f_arg example_export)))
   = 1%nat ∧
   ("/"%char ∉ Path.chars (f_arg example_export))).
Proof.
  split; [exact example_export_made|].
  exact (X4_export_path_has_backslash all_succeed 0%nat example_export
           example_export_made).
Defined.

